(** * Base64 File Converter: a shallow embedding of [base64converter.py]

    The program is one Tk form ([Base64ConverterApp]) whose four handlers
    [browse_file], [convert_file], [copy_to_clipboard] and [save_base64]
    read a file, encode its bytes with [base64.b64encode], show the text,
    and copy or save it.

    Layout of this development:
    - [Base64]: the encoding computed by [base64.b64encode] (RFC 4648, the
      standard alphabet, padded) and a strict decoder for it;
    - [Utf8]: what [bytes.decode("utf-8")] accepts;
    - [Py]: a small state-and-exception monad for the handlers' bodies,
      with [try ... except Exception];
    - [App]: the form's attributes, the environment it talks to, and the
      handlers, translated statement by statement;
    - the properties. *)

From Stdlib Require Import List Bool Arith NArith ZArith Zify Lia.
From Stdlib.Strings Require Import Ascii String Byte.
Import ListNotations.

(* ================================================================== *)
(** ** Base64 (the library call [base64.b64encode])                    *)
(* ================================================================== *)

Module Base64.

Local Open Scope N_scope.

(** The standard alphabet of RFC 4648, table 1: value [i] is written as
    the [i]-th byte of this list. *)
Definition alphabet : list byte :=
  list_byte_of_string
    "ABCDEFGHIJKLMNOPQRSTUVWXYZabcdefghijklmnopqrstuvwxyz0123456789+/".

(** The padding byte ['=']. *)
Definition pad : byte := "="%byte.

(** [table_b2a_base64[c]]: the byte that stands for the 6-bit value [c]. *)
Definition b2a (c : N) : byte := nth (N.to_nat c) alphabet pad.

(** The 6-bit value a byte of the alphabet stands for; [None] for every
    other byte (the padding byte included). *)
Fixpoint index_from (i : N) (tbl : list byte) (c : byte) : option N :=
  match tbl with
  | [] => None
  | x :: tbl' => if Byte.eqb x c then Some i else index_from (N.succ i) tbl' c
  end.

Definition a2b (c : byte) : option N := index_from 0 alphabet c.

(** The four 6-bit groups of a 24-bit input group [b0 b1 b2], most
    significant first. *)
Definition sextet0 (b0 : N) : N := N.shiftr b0 2.
Definition sextet1 (b0 b1 : N) : N :=
  N.lor (N.shiftl (N.land b0 3) 4) (N.shiftr b1 4).
Definition sextet2 (b1 b2 : N) : N :=
  N.lor (N.shiftl (N.land b1 15) 2) (N.shiftr b2 6).
Definition sextet3 (b2 : N) : N := N.land b2 63.

(** [base64.b64encode(data)]: every three input bytes give four output
    bytes; a final group of one or two bytes is zero-extended to a whole
    number of 6-bit groups and padded with ['='] to four bytes. *)
Fixpoint b64encode (data : list byte) : list byte :=
  match data with
  | [] => []
  | [x0] =>
      let b0 := Byte.to_N x0 in
      [b2a (sextet0 b0); b2a (sextet1 b0 0); pad; pad]
  | [x0; x1] =>
      let b0 := Byte.to_N x0 in
      let b1 := Byte.to_N x1 in
      [b2a (sextet0 b0); b2a (sextet1 b0 b1); b2a (sextet2 b1 0); pad]
  | x0 :: x1 :: x2 :: rest =>
      let b0 := Byte.to_N x0 in
      let b1 := Byte.to_N x1 in
      let b2 := Byte.to_N x2 in
      b2a (sextet0 b0) :: b2a (sextet1 b0 b1) ::
      b2a (sextet2 b1 b2) :: b2a (sextet3 b2) :: b64encode rest
  end.

(** The three bytes carried by four 6-bit values. *)
Definition octet0 (s0 s1 : N) : N :=
  N.land (N.lor (N.shiftl s0 2) (N.shiftr s1 4)) 255.
Definition octet1 (s1 s2 : N) : N :=
  N.land (N.lor (N.shiftl s1 4) (N.shiftr s2 2)) 255.
Definition octet2 (s2 s3 : N) : N :=
  N.land (N.lor (N.shiftl s2 6) s3) 255.

Definition bytes_of (ns : list N) : option (list byte) :=
  fold_right
    (fun n acc =>
       match Byte.of_N n, acc with
       | Some b, Some bs => Some (b :: bs)
       | _, _ => None
       end)
    (Some []) ns.

(** A group of four bytes that is not the last one: no padding allowed. *)
Definition decode_quad (c0 c1 c2 c3 : byte) : option (list byte) :=
  match a2b c0, a2b c1, a2b c2, a2b c3 with
  | Some s0, Some s1, Some s2, Some s3 =>
      bytes_of [octet0 s0 s1; octet1 s1 s2; octet2 s2 s3]
  | _, _, _, _ => None
  end.

(** The last group: it may end in one or two padding bytes. *)
Definition decode_last (c0 c1 c2 c3 : byte) : option (list byte) :=
  match a2b c0, a2b c1 with
  | Some s0, Some s1 =>
      if Byte.eqb c3 pad then
        if Byte.eqb c2 pad then bytes_of [octet0 s0 s1]
        else
          match a2b c2 with
          | Some s2 => bytes_of [octet0 s0 s1; octet1 s1 s2]
          | None => None
          end
      else decode_quad c0 c1 c2 c3
  | _, _ => None
  end.

(** Standard Base64 decoding (RFC 4648, section 4), strict: the input is
    a sequence of four-byte groups over the alphabet, only the last of
    which may be padded; anything else has no decoding. *)
Fixpoint b64decode (s : list byte) : option (list byte) :=
  match s with
  | [] => Some []
  | c0 :: c1 :: c2 :: c3 :: rest =>
      match rest with
      | [] => decode_last c0 c1 c2 c3
      | _ :: _ =>
          match decode_quad c0 c1 c2 c3, b64decode rest with
          | Some bs, Some bs' => Some (bs ++ bs')
          | _, _ => None
          end
      end
  | _ => None
  end.

(** What is checked of each of the 64 symbols: it decodes to its value,
    it is not the padding byte, and it is an ASCII byte. *)
Definition symbol_ok (s : N) : bool :=
  match a2b (b2a s) with
  | Some s' => N.eqb s' s
  | None => false
  end
  && negb (Byte.eqb (b2a s) pad)
  && (Byte.to_N (b2a s) <? 128).

End Base64.

(* ================================================================== *)
(** ** UTF-8 (the method [bytes.decode("utf-8")])                      *)
(* ================================================================== *)

(** A Python [str] is represented by the bytes of its UTF-8 encoding,
    kept in a [string]; the empty [str] is the empty [string], and text
    written with [encoding="utf-8"] is written as these bytes. *)
Definition str := string.

Module Utf8.

Local Open Scope N_scope.

Definition between (lo hi : N) (b : byte) : bool :=
  (lo <=? Byte.to_N b) && (Byte.to_N b <=? hi).

(** A continuation byte, [10xxxxxx]. *)
Definition cont (b : byte) : bool := between 128 191 b.

(** The well-formed byte sequences of the Unicode standard (table 3-7):
    one to four bytes per code point, no overlong form, no surrogate,
    nothing above U+10FFFF. This is what the strict ["utf-8"] codec
    accepts. *)
Fixpoint well_formed (bs : list byte) : bool :=
  match bs with
  | [] => true
  | b0 :: r0 =>
      if between 0 127 b0 then well_formed r0
      else
        match r0 with
        | [] => false
        | b1 :: r1 =>
            if between 194 223 b0 && cont b1 then well_formed r1
            else
              match r1 with
              | [] => false
              | b2 :: r2 =>
                  if (between 224 224 b0 && between 160 191 b1 && cont b2)
                     || (between 225 236 b0 && cont b1 && cont b2)
                     || (between 237 237 b0 && between 128 159 b1 && cont b2)
                     || (between 238 239 b0 && cont b1 && cont b2)
                  then well_formed r2
                  else
                    match r2 with
                    | [] => false
                    | b3 :: r3 =>
                        if (between 240 240 b0 && between 144 191 b1
                            && cont b2 && cont b3)
                           || (between 241 243 b0 && cont b1
                               && cont b2 && cont b3)
                           || (between 244 244 b0 && between 128 143 b1
                               && cont b2 && cont b3)
                        then well_formed r3
                        else false
                    end
              end
        end
  end.

(** [bs.decode("utf-8")]: the text, or [None] where Python raises
    [UnicodeDecodeError]. *)
Definition decode (bs : list byte) : option str :=
  if well_formed bs then Some (string_of_list_byte bs) else None.

(** [s.encode("utf-8")]. *)
Definition encode (s : str) : list byte := list_byte_of_string s.

(** [len(s)]: the number of code points, that is of bytes that are not
    continuation bytes. *)
Definition len (s : str) : nat :=
  List.length (filter (fun b => negb (cont b)) (encode s)).

End Utf8.

(** Truth value of a [str] in [if s:]. *)
Definition truthy (s : str) : bool :=
  match s with
  | EmptyString => false
  | String _ _ => true
  end.

(* ================================================================== *)
(** ** Statements that may raise                                       *)
(* ================================================================== *)

Module Py.

(** The exceptions the handlers can meet. [str(e)] is kept symbolic: an
    exception carries what its message is built from. [KeyboardInterrupt]
    stands for the classes that derive from [BaseException] only, which
    [except Exception] lets through. *)
Inductive exception : Type :=
| OSError (strerror : string)
| UnicodeDecodeError
| PyperclipException (message : string)
| KeyboardInterrupt.

(** [isinstance(e, Exception)]. *)
Definition is_Exception (e : exception) : bool :=
  match e with
  | OSError _ | UnicodeDecodeError | PyperclipException _ => true
  | KeyboardInterrupt => false
  end.

Inductive outcome (A : Type) : Type :=
| Returns (a : A)
| Raises (e : exception).
Arguments Returns {A} a.
Arguments Raises {A} e.

Section Monad.
Variable S : Type.

(** A block of statements over the state [S]: it returns or raises, and
    in both cases leaves a state behind (nothing is rolled back when an
    exception is raised). *)
Definition M (A : Type) : Type := S -> outcome A * S.

Definition ret {A} (a : A) : M A := fun s => (Returns a, s).

Definition bind {A B} (m : M A) (k : A -> M B) : M B :=
  fun s =>
    match m s with
    | (Returns a, s') => k a s'
    | (Raises e, s') => (Raises e, s')
    end.

Definition raise {A} (e : exception) : M A := fun s => (Raises e, s).

Definition gets {A} (f : S -> A) : M A := fun s => (Returns (f s), s).

Definition modify (f : S -> S) : M unit := fun s => (Returns tt, f s).

(** [try: body except Exception as e: handler(e)]. *)
Definition try_except_Exception (body : M unit)
           (handler : exception -> M unit) : M unit :=
  fun s =>
    match body s with
    | (Returns a, s') => (Returns a, s')
    | (Raises e, s') =>
        if is_Exception e then handler e s' else (Raises e, s')
    end.
End Monad.

Arguments ret {S A} a.
Arguments bind {S A B} m k.
Arguments raise {S A} e.
Arguments gets {S A} f.
Arguments modify {S} f.
Arguments try_except_Exception {S} body handler.

End Py.

Declare Scope py_scope.
Delimit Scope py_scope with py.
Notation "x <- m ;; k" := (Py.bind m (fun x => k))
  (at level 61, m at next level, right associativity) : py_scope.
Notation "m ;; k" := (Py.bind m (fun _ => k))
  (at level 61, right associativity) : py_scope.

(* ================================================================== *)
(** ** The form: [class Base64ConverterApp]                            *)
(* ================================================================== *)

Module App.

Import Py.
Local Open Scope string_scope.
Local Open Scope py_scope.

(** The [state=] option of a [ttk.Button]. *)
Inductive button_state : Type := normal | disabled.

(** The text of the status line. The handlers build it with f-strings
    from the values below; [os.path.basename] and the [.1f] rendering of
    [len(data) / 1024] are not spelled out. *)
Inductive status_text : Type :=
| SelectAFile                               (* "Select a file to begin" *)
| Ready (file_path : str)                   (* f"Ready: {basename}" *)
| Converted (n_bytes n_characters : nat)    (* f"Converted: ... KB → ... characters" *)
| Copied                                    (* "Copied to clipboard!" *)
| Saved (save_path : str).                  (* f"Saved: {basename}" *)

(** The attributes of [self] that the handlers read or write. *)
Record app : Type := mkApp {
  file_path : str;              (* self.file_path, a tk.StringVar *)
  current_b64 : str;            (* self.current_b64 *)
  convert_btn : button_state;   (* self.convert_btn *)
  copy_btn : button_state;      (* self.copy_btn *)
  save_btn : button_state;      (* self.save_btn *)
  output_text : str;            (* contents of self.output_text *)
  status : status_text          (* text of self.status *)
}.

(** What the handlers do to the world outside [self], in order. *)
Inductive event : Type :=
| AskOpenFilename                                 (* filedialog.askopenfilename *)
| AskSaveAsFilename                               (* filedialog.asksaveasfilename *)
| ShowError (title head : string) (e : exception) (* messagebox.showerror(title, head + str(e)) *)
| ClipboardCopy (text : str)                      (* pyperclip.copy *)
| FileWrite (path : str) (text : str).            (* open(path, "w").write *)

(** How [with open(path, "w", encoding="utf-8") as f: f.write(text)]
    can fail. [open] creates the file or truncates it, so a failure that
    comes later, in [f.write] or in the flush when the file is closed,
    leaves the file with the bytes that reached it before. *)
Inductive write_failure : Type :=
| AtOpen (e : exception)                  (* open raises: the file is untouched *)
| AfterOpen (n_written : nat) (e : exception).
                                          (* write or close raises after n bytes *)

(** The exception a failed write raises. *)
Definition raised (f : write_failure) : exception :=
  match f with
  | AtOpen e => e
  | AfterOpen _ e => e
  end.

(** The world outside [self] at the moment a handler runs. *)
Record world : Type := mkWorld {
  (* open(path, "rb").read(): the bytes, or the exception raised *)
  read_bytes : str -> list byte + exception;
  (* open(path, "w", encoding="utf-8") and the write: how it fails, if it does *)
  write_refused : str -> option write_failure;
  (* what the user answers to the open dialog; empty when cancelled *)
  open_answer : str;
  (* what the user answers to the save dialog; empty when cancelled *)
  save_answer : str;
  (* pyperclip's error text when no copy mechanism is available *)
  clipboard_refused : option string;
  clipboard : str;
  (* what has been done so far, most recent first *)
  trace : list event
}.

(** The state the handlers run in. *)
Record sys : Type := mkSys { self : app; env : world }.

Definition M := Py.M sys.

(** *** Assignments to the attributes of [self] *)

Definition with_file_path (v : str) (a : app) : app :=
  mkApp v (current_b64 a) (convert_btn a) (copy_btn a) (save_btn a)
        (output_text a) (status a).
Definition with_current_b64 (v : str) (a : app) : app :=
  mkApp (file_path a) v (convert_btn a) (copy_btn a) (save_btn a)
        (output_text a) (status a).
Definition with_convert_btn (v : button_state) (a : app) : app :=
  mkApp (file_path a) (current_b64 a) v (copy_btn a) (save_btn a)
        (output_text a) (status a).
Definition with_copy_btn (v : button_state) (a : app) : app :=
  mkApp (file_path a) (current_b64 a) (convert_btn a) v (save_btn a)
        (output_text a) (status a).
Definition with_save_btn (v : button_state) (a : app) : app :=
  mkApp (file_path a) (current_b64 a) (convert_btn a) (copy_btn a) v
        (output_text a) (status a).
Definition with_output_text (v : str) (a : app) : app :=
  mkApp (file_path a) (current_b64 a) (convert_btn a) (copy_btn a)
        (save_btn a) v (status a).
Definition with_status (v : status_text) (a : app) : app :=
  mkApp (file_path a) (current_b64 a) (convert_btn a) (copy_btn a)
        (save_btn a) (output_text a) v.

Definition on_self (f : app -> app) : M unit :=
  modify (fun s => mkSys (f (self s)) (env s)).

Definition the (f : app -> str) : M str := gets (fun s => f (self s)).

(** *** The world's side *)

Definition logged (ev : event) (w : world) : world :=
  mkWorld (read_bytes w) (write_refused w) (open_answer w) (save_answer w)
          (clipboard_refused w) (clipboard w) (ev :: trace w).

Definition with_clipboard (text : str) (w : world) : world :=
  mkWorld (read_bytes w) (write_refused w) (open_answer w) (save_answer w)
          (clipboard_refused w) text (trace w).

Definition with_file (path : str) (content : list byte) (w : world) : world :=
  mkWorld (fun p => if String.eqb p path then inl content else read_bytes w p)
          (write_refused w) (open_answer w) (save_answer w)
          (clipboard_refused w) (clipboard w) (trace w).

Definition on_env (f : world -> world) : M unit :=
  modify (fun s => mkSys (self s) (f (env s))).

Definition log (ev : event) : M unit := on_env (logged ev).

(** [filedialog.askopenfilename(...)] *)
Definition askopenfilename : M str :=
  log AskOpenFilename ;; gets (fun s => open_answer (env s)).

(** [filedialog.asksaveasfilename(...)] *)
Definition asksaveasfilename : M str :=
  log AskSaveAsFilename ;; gets (fun s => save_answer (env s)).

(** [with open(path, "rb") as f: data = f.read()] *)
Definition read_binary (path : str) : M (list byte) :=
  r <- gets (fun s => read_bytes (env s) path) ;;
  match r with
  | inl data => ret data
  | inr e => raise e
  end.

(** What a failed write of [text] leaves at [path]. *)
Definition spoiled (path : str) (text : str) (f : write_failure)
           (w : world) : world :=
  match f with
  | AtOpen _ => w
  | AfterOpen n_written _ =>
      with_file path (firstn n_written (Utf8.encode text)) w
  end.

(** [with open(path, "w", encoding="utf-8") as f: f.write(text)] *)
Definition write_text (path : str) (text : str) : M unit :=
  r <- gets (fun s => write_refused (env s) path) ;;
  match r with
  | Some f =>
      on_env (spoiled path text f) ;;
      raise (raised f)
  | None =>
      on_env (with_file path (Utf8.encode text)) ;;
      log (FileWrite path text)
  end.

(** [pyperclip.copy(text)] *)
Definition pyperclip_copy (text : str) : M unit :=
  r <- gets (fun s => clipboard_refused (env s)) ;;
  match r with
  | Some message => raise (PyperclipException message)
  | None => on_env (with_clipboard text) ;; log (ClipboardCopy text)
  end.

(** [messagebox.showerror(title, f"{head}{str(e)}")] *)
Definition showerror (title head : string) (e : exception) : M unit :=
  log (ShowError title head e).

(** [bs.decode("utf-8")] *)
Definition decode_utf8 (bs : list byte) : M str :=
  match Utf8.decode bs with
  | Some s => ret s
  | None => raise UnicodeDecodeError
  end.

Definition newline : string := String "010"%char EmptyString.

(** *** The methods *)

(** [__init__] and [setup_ui]: the attributes of a fresh form. *)
Definition init : app :=
  {| file_path := "";
     current_b64 := "";
     convert_btn := disabled;
     copy_btn := disabled;
     save_btn := disabled;
     output_text := "";
     status := SelectAFile |}.

(** [update_status(message)] *)
Definition update_status (message : status_text) : M unit :=
  on_self (with_status message).

(** [browse_file] *)
Definition browse_file : M unit :=
  file_path <- askopenfilename ;;
  if truthy file_path then
    on_self (with_file_path file_path) ;;
    on_self (with_convert_btn normal) ;;
    update_status (Ready file_path)
  else ret tt.

(** [convert_file] *)
Definition convert_file : M unit :=
  try_except_Exception
    (file_path <- the file_path ;;
     data <- read_binary file_path ;;
     b64 <- decode_utf8 (Base64.b64encode data) ;;
     on_self (with_current_b64 b64) ;;
     (* self.output_text.delete(1.0, tk.END) *)
     on_self (with_output_text "") ;;
     (* self.output_text.insert(1.0, self.current_b64) *)
     cur <- the current_b64 ;;
     on_self (fun a => with_output_text (cur ++ output_text a) a) ;;
     on_self (with_copy_btn normal) ;;
     on_self (with_save_btn normal) ;;
     cur <- the current_b64 ;;
     update_status (Converted (List.length data) (Utf8.len cur)))
    (fun e => showerror "Conversion Error" ("Failed to read file:" ++ newline) e).

(** [copy_to_clipboard] *)
Definition copy_to_clipboard : M unit :=
  cur <- the current_b64 ;;
  if truthy cur then
    cur <- the current_b64 ;;
    pyperclip_copy cur ;;
    update_status Copied
  else ret tt.

(** [save_base64] *)
Definition save_base64 : M unit :=
  cur <- the current_b64 ;;
  if negb (truthy cur) then ret tt
  else
    save_path <- asksaveasfilename ;;
    if truthy save_path then
      try_except_Exception
        (cur <- the current_b64 ;;
         write_text save_path cur ;;
         update_status (Saved save_path))
        (fun e => showerror "Save Error" ("Could not save file:" ++ newline) e)
    else ret tt.

(** *** What the methods leave behind *)

(** The text [convert_file] stores for the bytes [data]. *)
Definition encoded (data : list byte) : str :=
  string_of_list_byte (Base64.b64encode data).

(** The attributes after a conversion of [data] that went through. *)
Definition converted (data : list byte) (a : app) : app :=
  {| file_path := file_path a;
     current_b64 := encoded data;
     convert_btn := convert_btn a;
     copy_btn := normal;
     save_btn := normal;
     output_text := encoded data;
     status := Converted (List.length data) (Utf8.len (encoded data)) |}.

(** What a call leaves of the attributes other than the status line. *)
Definition same_but_status (a a' : app) : Prop :=
  file_path a' = file_path a /\
  current_b64 a' = current_b64 a /\
  convert_btn a' = convert_btn a /\
  copy_btn a' = copy_btn a /\
  save_btn a' = save_btn a /\
  output_text a' = output_text a.

(** *** Running the form *)

(** One call of a handler. *)
Inductive action : Type := Browse | Convert | Copy | Save.

Definition handler (act : action) : M unit :=
  match act with
  | Browse => browse_file
  | Convert => convert_file
  | Copy => copy_to_clipboard
  | Save => save_base64
  end.

(** The attributes of [self] after a handler has run in the world [w]. *)
Definition after (act : action) (a : app) (w : world) : app :=
  self (snd (handler act (mkSys a w))).

(** The world after a handler has run. *)
Definition world_after (act : action) (a : app) (w : world) : world :=
  env (snd (handler act (mkSys a w))).

(** How the call ended. *)
Definition result (act : action) (a : app) (w : world) : outcome unit :=
  fst (handler act (mkSys a w)).

(** The bytes of the most recently converted file: a conversion goes
    through exactly when the file named by the path field is read, and
    then it is those bytes; every other call leaves the record alone. *)
Definition converted_after (act : action) (a : app) (w : world)
           (last : option (list byte)) : option (list byte) :=
  match act with
  | Convert =>
      match read_bytes w (file_path a) with
      | inl data => Some data
      | inr _ => last
      end
  | _ => last
  end.

(** The states a form can be in, with the bytes of the most recently
    converted file ([None] before the first conversion that goes
    through). Between two calls the world may change in any way: each
    call meets a world of its own. *)
Inductive reachable : app -> option (list byte) -> Prop :=
| reach_init : reachable init None
| reach_step (act : action) (w : world) (a : app) (last : option (list byte)) :
    reachable a last ->
    reachable (after act a w) (converted_after act a w last).
Arguments reach_step act w {a last} _.

(** *** The buttons: [setup_ui] and [run] *)

Definition is_normal (b : button_state) : bool :=
  match b with
  | normal => true
  | disabled => false
  end.

(** [setup_ui] gives each handler one button: [browse_btn], created
    without a [state=] and never configured again, and the three buttons
    kept in [self]. Tk does not call the command of a disabled button. *)
Definition clickable (act : action) (a : app) : bool :=
  match act with
  | Browse => true
  | Convert => is_normal (convert_btn a)
  | Copy => is_normal (copy_btn a)
  | Save => is_normal (save_btn a)
  end.

(** One click, in the world [w] of that moment. When the command raises,
    Tk reports the exception and the loop goes on with the attributes as
    the command left them. *)
Definition click (act : action) (a : app) (w : world) : app :=
  if clickable act a then after act a w else a.

(** [run]: the main loop serves the clicks in order. *)
Fixpoint clicks (cs : list (action * world)) (a : app) : app :=
  match cs with
  | [] => a
  | (act, w) :: cs' => clicks cs' (click act a w)
  end.

End App.

(* ================================================================== *)
(** ** Sample runs                                                     *)
(* ================================================================== *)

Module Sample.

Import Py App.
Local Open Scope string_scope.

Definition notes : list byte := list_byte_of_string "Man".
Definition draft : list byte := list_byte_of_string "Ma".

(** A desk with one readable file and one place to save to. *)
Definition desk : world :=
  {| read_bytes := fun p =>
       if String.eqb p "notes.txt" then inl notes
       else inr (OSError "[Errno 2] No such file or directory");
     write_refused := fun p =>
       if String.eqb p "out.txt" then None
       else Some (AtOpen (OSError "[Errno 13] Permission denied"));
     open_answer := "notes.txt";
     save_answer := "out.txt";
     clipboard_refused := None;
     clipboard := "";
     trace := [] |}.

(** Another one, with another file. *)
Definition shelf : world :=
  {| read_bytes := fun p =>
       if String.eqb p "draft.txt" then inl draft
       else inr (OSError "[Errno 2] No such file or directory");
     write_refused := fun _ => None;
     open_answer := "draft.txt";
     save_answer := "";
     clipboard_refused := None;
     clipboard := "";
     trace := [] |}.

(** A desk where nothing can be read or written. *)
Definition locked_desk : world :=
  {| read_bytes := fun _ => inr (OSError "[Errno 13] Permission denied");
     write_refused := fun _ =>
       Some (AtOpen (OSError "[Errno 13] Permission denied"));
     open_answer := "";
     save_answer := "out.txt";
     clipboard_refused := Some "no copy/paste mechanism";
     clipboard := "";
     trace := [] |}.

(** The form after [notes.txt] has been picked. *)
Definition picked : app := after Browse init desk.

(** The form after [notes.txt] has been picked and converted. *)
Definition shown : app := after Convert picked desk.

(** The form after [draft.txt] has been converted and [notes.txt] picked. *)
Definition repicked : app :=
  after Browse (after Convert (after Browse init shelf) shelf) desk.

End Sample.

Module MoreSample.

Import Py App Sample.
Local Open Scope string_scope.

(** A desk whose only file is empty. *)
Definition bare_desk : world :=
  {| read_bytes := fun p =>
       if String.eqb p "empty.bin" then inl []
       else inr (OSError "[Errno 2] No such file or directory");
     write_refused := fun _ => None;
     open_answer := "empty.bin";
     save_answer := "out.txt";
     clipboard_refused := None;
     clipboard := "";
     trace := [] |}.

(** A desk where the user cancels both dialogs. *)
Definition idle_desk : world :=
  {| read_bytes := fun p =>
       if String.eqb p "notes.txt" then inl notes
       else inr (OSError "[Errno 2] No such file or directory");
     write_refused := fun _ => None;
     open_answer := "";
     save_answer := "";
     clipboard_refused := None;
     clipboard := "kept";
     trace := [] |}.



(** The form after [empty.bin] has been picked and converted. *)
Definition blank : app := after Convert (after Browse init bare_desk) bare_desk.

End MoreSample.

(* ================================================================== *)
(** ** The encoding on small inputs                                    *)
(* ================================================================== *)

Example b64_Man :
  Base64.b64encode (list_byte_of_string "Man") = list_byte_of_string "TWFu".
Proof. reflexivity. Qed.

Example b64_Ma :
  Base64.b64encode (list_byte_of_string "Ma") = list_byte_of_string "TWE=".
Proof. reflexivity. Qed.

Example b64_M :
  Base64.b64encode (list_byte_of_string "M") = list_byte_of_string "TQ==".
Proof. reflexivity. Qed.

Example b64_foobar_back :
  Base64.b64decode (list_byte_of_string "Zm9vYmE=")
  = Some (list_byte_of_string "fooba").
Proof. reflexivity. Qed.

Example b64_rfc4648_foobar :
  map (fun s => string_of_list_byte (Base64.b64encode (list_byte_of_string s)))
      ["f"; "fo"; "foo"; "foob"; "fooba"; "foobar"]%string
  = ["Zg=="; "Zm8="; "Zm9v"; "Zm9vYg=="; "Zm9vYmE="; "Zm9vYmFy"]%string.
Proof. reflexivity. Qed.

Example b64_high_bytes :
  Base64.b64encode [xff; xfe; xfd] = list_byte_of_string "//79".
Proof. reflexivity. Qed.

Example b64_back_rejects_stray_byte :
  Base64.b64decode (list_byte_of_string "TW Fu") = None.
Proof. reflexivity. Qed.

(* ================================================================== *)
(** ** Properties of the encoding                                      *)
(* ================================================================== *)

Module Base64Facts.

Import Base64.
Local Open Scope N_scope.

(** *** Bit operations on bounded numbers, as arithmetic *)

Lemma lor_shifted (a b k : N) :
  b < 2 ^ k -> N.lor (N.shiftl a k) b = a * 2 ^ k + b.
Proof.
  intros Hb.
  rewrite N.shiftl_mul_pow2.
  assert (Hdisj : N.land (a * 2 ^ k) b = 0).
  { apply N.bits_inj_0. intros n.
    rewrite N.land_spec.
    destruct (N.lt_ge_cases n k) as [Hlt | Hge].
    - now rewrite N.mul_pow2_bits_low.
    - rewrite <- (N.mod_small b (2 ^ k)) by assumption.
      rewrite N.mod_pow2_bits_high by assumption.
      apply andb_false_r. }
  rewrite N.add_nocarry_lxor by assumption.
  symmetry. now apply N.lxor_lor.
Qed.

Ltac divmod := zify; Z.to_euclidean_division_equations; lia.

Ltac masks :=
  change 3 with (N.ones 2); change 15 with (N.ones 4);
  change 63 with (N.ones 6); change 255 with (N.ones 8);
  rewrite ?N.land_ones, ?N.shiftr_div_pow2;
  change (2 ^ 2) with 4; change (2 ^ 4) with 16;
  change (2 ^ 6) with 64; change (2 ^ 8) with 256.

Lemma sextet0_eq (b0 : N) : sextet0 b0 = b0 / 4.
Proof. unfold sextet0. now masks. Qed.

Lemma sextet1_eq (b0 b1 : N) :
  b1 < 256 -> sextet1 b0 b1 = (b0 mod 4) * 16 + b1 / 16.
Proof.
  intros H. unfold sextet1. masks.
  rewrite lor_shifted; [reflexivity | change (2 ^ 4) with 16; divmod].
Qed.

Lemma sextet2_eq (b1 b2 : N) :
  b2 < 256 -> sextet2 b1 b2 = (b1 mod 16) * 4 + b2 / 64.
Proof.
  intros H. unfold sextet2. masks.
  rewrite lor_shifted; [reflexivity | change (2 ^ 2) with 4; divmod].
Qed.

Lemma sextet3_eq (b2 : N) : sextet3 b2 = b2 mod 64.
Proof. unfold sextet3. now masks. Qed.

Lemma octet0_eq (s0 s1 : N) :
  s1 < 64 -> octet0 s0 s1 = (s0 * 4 + s1 / 16) mod 256.
Proof.
  intros H. unfold octet0. masks.
  rewrite lor_shifted; [reflexivity | change (2 ^ 2) with 4; divmod].
Qed.

Lemma octet1_eq (s1 s2 : N) :
  s2 < 64 -> octet1 s1 s2 = (s1 * 16 + s2 / 4) mod 256.
Proof.
  intros H. unfold octet1. masks.
  rewrite lor_shifted; [reflexivity | change (2 ^ 4) with 16; divmod].
Qed.

Lemma octet2_eq (s2 s3 : N) :
  s3 < 64 -> octet2 s2 s3 = (s2 * 64 + s3) mod 256.
Proof.
  intros H. unfold octet2. masks.
  rewrite lor_shifted; [reflexivity | change (2 ^ 6) with 64; assumption].
Qed.

(** *** The 6-bit groups of bytes are 6-bit values *)

Lemma sextet0_lt (b0 : N) : b0 < 256 -> sextet0 b0 < 64.
Proof. intros H. rewrite sextet0_eq. divmod. Qed.

Lemma sextet1_lt (b0 b1 : N) : b1 < 256 -> sextet1 b0 b1 < 64.
Proof. intros H. rewrite sextet1_eq by assumption. divmod. Qed.

Lemma sextet2_lt (b1 b2 : N) : b2 < 256 -> sextet2 b1 b2 < 64.
Proof. intros H. rewrite sextet2_eq by assumption. divmod. Qed.

Lemma sextet3_lt (b2 : N) : sextet3 b2 < 64.
Proof. rewrite sextet3_eq. divmod. Qed.

(** *** The bytes come back from their 6-bit groups *)

Lemma octet0_sextets (b0 b1 : N) :
  b0 < 256 -> b1 < 256 -> octet0 (sextet0 b0) (sextet1 b0 b1) = b0.
Proof.
  intros H0 H1.
  rewrite octet0_eq by now apply sextet1_lt.
  rewrite sextet0_eq, sextet1_eq by assumption. divmod.
Qed.

Lemma octet1_sextets (b0 b1 b2 : N) :
  b1 < 256 -> b2 < 256 ->
  octet1 (sextet1 b0 b1) (sextet2 b1 b2) = b1.
Proof.
  intros H1 H2.
  rewrite octet1_eq by now apply sextet2_lt.
  rewrite sextet1_eq, sextet2_eq by assumption. divmod.
Qed.

Lemma octet2_sextets (b1 b2 : N) :
  b2 < 256 -> octet2 (sextet2 b1 b2) (sextet3 b2) = b2.
Proof.
  intros H2.
  rewrite octet2_eq by apply sextet3_lt.
  rewrite sextet2_eq, sextet3_eq by assumption. divmod.
Qed.

Lemma to_N_lt (b : byte) : Byte.to_N b < 256.
Proof. pose proof (Byte.to_N_bounded b). lia. Qed.

(** *** The alphabet *)

Lemma symbols_ok : forallb symbol_ok (map N.of_nat (seq 0 64)) = true.
Proof. vm_compute. reflexivity. Qed.

Lemma symbol_ok_lt (s : N) : s < 64 -> symbol_ok s = true.
Proof.
  intros H.
  apply (proj1 (forallb_forall _ _) symbols_ok).
  apply in_map_iff. exists (N.to_nat s). split.
  - apply N2Nat.id.
  - apply in_seq. lia.
Qed.

Lemma a2b_b2a (s : N) : s < 64 -> a2b (b2a s) = Some s.
Proof.
  intros H. pose proof (symbol_ok_lt s H) as Hok.
  unfold symbol_ok in Hok.
  apply andb_prop in Hok. destruct Hok as [Hok _].
  apply andb_prop in Hok. destruct Hok as [Hok _].
  destruct (a2b (b2a s)) as [s'|]; [|discriminate].
  apply N.eqb_eq in Hok. now subst.
Qed.

Lemma b2a_not_pad (s : N) : s < 64 -> Byte.eqb (b2a s) pad = false.
Proof.
  intros H. pose proof (symbol_ok_lt s H) as Hok.
  unfold symbol_ok in Hok.
  apply andb_prop in Hok. destruct Hok as [Hok _].
  apply andb_prop in Hok. destruct Hok as [_ Hok].
  now apply negb_true_iff in Hok.
Qed.

Lemma b2a_ascii (s : N) : s < 64 -> Byte.to_N (b2a s) < 128.
Proof.
  intros H. pose proof (symbol_ok_lt s H) as Hok.
  unfold symbol_ok in Hok.
  apply andb_prop in Hok. destruct Hok as [_ Hok].
  now apply N.ltb_lt in Hok.
Qed.

Lemma a2b_pad : a2b pad = None.
Proof. reflexivity. Qed.

(** *** Decoding one group *)

Lemma decode_quad_encoded (x0 x1 x2 : byte) :
  decode_quad (b2a (sextet0 (Byte.to_N x0)))
              (b2a (sextet1 (Byte.to_N x0) (Byte.to_N x1)))
              (b2a (sextet2 (Byte.to_N x1) (Byte.to_N x2)))
              (b2a (sextet3 (Byte.to_N x2)))
  = Some [x0; x1; x2].
Proof.
  pose proof (to_N_lt x0) as H0.
  pose proof (to_N_lt x1) as H1.
  pose proof (to_N_lt x2) as H2.
  unfold decode_quad.
  rewrite !a2b_b2a
    by auto using sextet0_lt, sextet1_lt, sextet2_lt, sextet3_lt.
  unfold bytes_of, fold_right.
  rewrite octet0_sextets, octet1_sextets, octet2_sextets by assumption.
  now rewrite !Byte.of_to_N.
Qed.

Lemma decode_last_encoded3 (x0 x1 x2 : byte) :
  decode_last (b2a (sextet0 (Byte.to_N x0)))
              (b2a (sextet1 (Byte.to_N x0) (Byte.to_N x1)))
              (b2a (sextet2 (Byte.to_N x1) (Byte.to_N x2)))
              (b2a (sextet3 (Byte.to_N x2)))
  = Some [x0; x1; x2].
Proof.
  pose proof (to_N_lt x0) as H0.
  pose proof (to_N_lt x1) as H1.
  unfold decode_last.
  rewrite !a2b_b2a by auto using sextet0_lt, sextet1_lt.
  rewrite b2a_not_pad by apply sextet3_lt.
  apply decode_quad_encoded.
Qed.

Lemma decode_last_encoded2 (x0 x1 : byte) :
  decode_last (b2a (sextet0 (Byte.to_N x0)))
              (b2a (sextet1 (Byte.to_N x0) (Byte.to_N x1)))
              (b2a (sextet2 (Byte.to_N x1) 0))
              pad
  = Some [x0; x1].
Proof.
  pose proof (to_N_lt x0) as H0.
  pose proof (to_N_lt x1) as H1.
  assert (Hz : 0 < 256) by lia.
  unfold decode_last.
  rewrite !a2b_b2a by auto using sextet0_lt, sextet1_lt.
  change (Byte.eqb pad pad) with true. cbv iota.
  rewrite b2a_not_pad by auto using sextet2_lt.
  rewrite a2b_b2a by auto using sextet2_lt.
  unfold bytes_of, fold_right.
  rewrite octet0_sextets, octet1_sextets by assumption.
  now rewrite !Byte.of_to_N.
Qed.

Lemma decode_last_encoded1 (x0 : byte) :
  decode_last (b2a (sextet0 (Byte.to_N x0)))
              (b2a (sextet1 (Byte.to_N x0) 0))
              pad pad
  = Some [x0].
Proof.
  pose proof (to_N_lt x0) as H0.
  assert (Hz : 0 < 256) by lia.
  unfold decode_last.
  rewrite !a2b_b2a by auto using sextet0_lt, sextet1_lt.
  change (Byte.eqb pad pad) with true. cbv iota.
  unfold bytes_of, fold_right.
  rewrite octet0_sextets by assumption.
  now rewrite Byte.of_to_N.
Qed.

(** *** Lists, three elements at a time *)

Lemma list_ind3 (A : Type) (P : list A -> Prop) :
  P [] ->
  (forall x, P [x]) ->
  (forall x y, P [x; y]) ->
  (forall x y z rest, P rest -> P (x :: y :: z :: rest)) ->
  forall l, P l.
Proof.
  intros H0 H1 H2 H3 l.
  enough (H : P l /\ (forall x, P (x :: l)) /\ (forall x y, P (x :: y :: l)))
    by apply H.
  induction l as [|z l [IH0 [IH1 IH2]]].
  - auto.
  - repeat split; auto.
Qed.

Lemma b64encode_nil_inv (data : list byte) :
  b64encode data = [] -> data = [].
Proof.
  destruct data as [|x0 [|x1 [|x2 rest]]]; simpl; intros H;
    [reflexivity | discriminate H ..].
Qed.

(** *** The whole text *)

(** Decoding undoes encoding. *)
Lemma b64decode_b64encode (data : list byte) :
  b64decode (b64encode data) = Some data.
Proof.
  induction data as [| x0 | x0 x1 | x0 x1 x2 rest IH] using list_ind3.
  - reflexivity.
  - apply decode_last_encoded1.
  - apply decode_last_encoded2.
  - change (b64encode (x0 :: x1 :: x2 :: rest))
      with (b2a (sextet0 (Byte.to_N x0))
            :: b2a (sextet1 (Byte.to_N x0) (Byte.to_N x1))
            :: b2a (sextet2 (Byte.to_N x1) (Byte.to_N x2))
            :: b2a (sextet3 (Byte.to_N x2)) :: b64encode rest).
    cbn [b64decode].
    destruct (b64encode rest) as [|c cs] eqn:E.
    + apply b64encode_nil_inv in E. subst rest.
      apply decode_last_encoded3.
    + rewrite decode_quad_encoded, IH. reflexivity.
Qed.

(** Every byte of an encoding is an ASCII byte. *)
Lemma b64encode_ascii (data : list byte) :
  Forall (fun b => Byte.to_N b < 128) (b64encode data).
Proof.
  assert (Hpad : Byte.to_N pad < 128) by (vm_compute; reflexivity).
  assert (Hz : 0 < 256) by lia.
  induction data as [| x0 | x0 x1 | x0 x1 x2 rest IH] using list_ind3;
    cbn [b64encode];
    repeat match goal with
           | |- Forall _ [] => constructor
           | |- Forall _ (_ :: _) => constructor
           | |- Byte.to_N (b2a _) < 128 => apply b2a_ascii
           end;
    auto using sextet0_lt, sextet1_lt, sextet2_lt, sextet3_lt, to_N_lt.
Qed.

(** The encoding of [n] bytes has [4 * ceil(n / 3)] bytes. *)
Lemma b64encode_length (data : list byte) :
  List.length (b64encode data) = (4 * ((List.length data + 2) / 3))%nat.
Proof.
  induction data as [| x0 | x0 x1 | x0 x1 x2 rest IH] using list_ind3;
    try reflexivity.
  cbn [b64encode List.length]. rewrite IH.
  replace (S (S (S (List.length rest))) + 2)%nat
    with ((List.length rest + 2) + 1 * 3)%nat by lia.
  rewrite Nat.div_add by discriminate. lia.
Qed.

End Base64Facts.

Module Utf8Facts.

Import Utf8.
Local Open Scope N_scope.

(** A sequence of ASCII bytes is well-formed UTF-8. *)
Lemma well_formed_ascii (bs : list byte) :
  Forall (fun b => Byte.to_N b < 128) bs -> well_formed bs = true.
Proof.
  induction 1 as [|b bs Hb _ IH]; [reflexivity|].
  cbn [well_formed].
  replace (between 0 127 b) with true; [exact IH|].
  symmetry. unfold between.
  apply andb_true_intro. split; apply N.leb_le; lia.
Qed.

Lemma decode_ascii (bs : list byte) :
  Forall (fun b => Byte.to_N b < 128) bs ->
  decode bs = Some (string_of_list_byte bs).
Proof.
  intros H. unfold decode. now rewrite well_formed_ascii.
Qed.

Lemma encode_decode (bs : list byte) (s : str) :
  decode bs = Some s -> encode s = bs.
Proof.
  unfold decode, encode.
  destruct (well_formed bs); [|discriminate].
  intros [= <-]. apply list_byte_of_string_of_list_byte.
Qed.

(** An ASCII text has as many characters as bytes. *)
Lemma len_ascii (bs : list byte) :
  Forall (fun b => Byte.to_N b < 128) bs ->
  len (string_of_list_byte bs) = List.length bs.
Proof.
  intros H. unfold len, encode.
  rewrite list_byte_of_string_of_list_byte.
  induction H as [|b bs Hb _ IH]; [reflexivity|].
  cbn [filter].
  replace (cont b) with false.
  - cbn. now rewrite IH.
  - symmetry. unfold cont, between.
    apply andb_false_intro1. apply N.leb_gt. lia.
Qed.

End Utf8Facts.

(* ================================================================== *)
(** ** What each handler does                                          *)
(* ================================================================== *)

Module AppFacts.

Import Py App.
Local Open Scope string_scope.

Lemma append_empty_r (s : string) : s ++ "" = s.
Proof. induction s as [|c s IH]; [reflexivity | cbn; now rewrite IH]. Qed.

Lemma truthy_false_iff (s : str) : truthy s = false <-> s = "".
Proof. destruct s; cbn; split; congruence. Qed.

Lemma truthy_true_iff (s : str) : truthy s = true <-> s <> "".
Proof. destruct s; cbn; split; congruence. Qed.

Lemma decode_b64encode (data : list byte) :
  Utf8.decode (Base64.b64encode data) = Some (encoded data).
Proof. apply Utf8Facts.decode_ascii, Base64Facts.b64encode_ascii. Qed.

Ltac unfold_handlers :=
  cbv beta iota delta
    [handler browse_file convert_file copy_to_clipboard save_base64
     try_except_Exception bind ret raise gets modify
     the on_self on_env log update_status showerror
     askopenfilename asksaveasfilename read_binary write_text
     pyperclip_copy decode_utf8
     logged with_file with_clipboard
     with_file_path with_current_b64 with_convert_btn with_copy_btn
     with_save_btn with_output_text with_status].

Ltac open_sys a w :=
  destruct a as [fp cur cvb cpb svb out st];
  destruct w as [rd wr oa sa cr cl tr].

(** [convert_file] when the file is read. *)
Lemma convert_file_read (a : app) (w : world) (data : list byte) :
  read_bytes w (file_path a) = inl data ->
  convert_file (mkSys a w) = (Returns tt, mkSys (converted data a) w).
Proof.
  intros Hread.
  unfold convert_file, try_except_Exception, bind at 1, the at 1, gets at 1.
  cbn [self].
  unfold bind at 1, read_binary, bind at 1, gets at 1. cbn [env].
  rewrite Hread. unfold ret at 1.
  unfold bind at 1, decode_utf8. rewrite decode_b64encode.
  unfold_handlers. cbn. rewrite append_empty_r. reflexivity.
Qed.

(** [convert_file] when opening or reading the file raises: an
    [Exception] is shown, anything else goes to the caller. *)
Lemma convert_file_unread (a : app) (w : world) (e : exception) :
  read_bytes w (file_path a) = inr e ->
  convert_file (mkSys a w)
  = if is_Exception e then
      (Returns tt,
       mkSys a (logged (ShowError "Conversion Error"
                                  ("Failed to read file:" ++ newline) e) w))
    else (Raises e, mkSys a w).
Proof.
  intros Hread.
  unfold convert_file, try_except_Exception, bind at 1, the at 1, gets at 1.
  cbn [self].
  unfold bind at 1, read_binary, bind at 1, gets at 1. cbn [env].
  rewrite Hread. unfold raise.
  destruct (is_Exception e); [|reflexivity].
  unfold_handlers. cbn. destruct a; reflexivity.
Qed.

(** [browse_file]. *)
Lemma browse_file_run (a : app) (w : world) :
  browse_file (mkSys a w)
  = (Returns tt,
     mkSys (if truthy (open_answer w)
            then with_status (Ready (open_answer w))
                   (with_convert_btn normal
                      (with_file_path (open_answer w) a))
            else a)
           (logged AskOpenFilename w)).
Proof.
  open_sys a w. unfold_handlers. cbn.
  destruct (truthy oa); reflexivity.
Qed.

(** [copy_to_clipboard]. *)
Lemma copy_to_clipboard_run (a : app) (w : world) :
  copy_to_clipboard (mkSys a w)
  = if truthy (current_b64 a) then
      match clipboard_refused w with
      | Some message => (Raises (PyperclipException message), mkSys a w)
      | None =>
          (Returns tt,
           mkSys (with_status Copied a)
                 (logged (ClipboardCopy (current_b64 a))
                         (with_clipboard (current_b64 a) w)))
      end
    else (Returns tt, mkSys a w).
Proof.
  open_sys a w. unfold_handlers. cbn.
  destruct (truthy cur); [destruct cr|]; reflexivity.
Qed.

(** [save_base64]. *)
Lemma save_base64_run (a : app) (w : world) :
  save_base64 (mkSys a w)
  = if negb (truthy (current_b64 a)) then (Returns tt, mkSys a w)
    else if truthy (save_answer w) then
      match write_refused w (save_answer w) with
      | Some f =>
          if is_Exception (raised f) then
            (Returns tt,
             mkSys a (logged (ShowError "Save Error"
                                        ("Could not save file:" ++ newline)
                                        (raised f))
                             (spoiled (save_answer w) (current_b64 a) f
                                      (logged AskSaveAsFilename w))))
          else
            (Raises (raised f),
             mkSys a (spoiled (save_answer w) (current_b64 a) f
                              (logged AskSaveAsFilename w)))
      | None =>
          (Returns tt,
           mkSys (with_status (Saved (save_answer w)) a)
                 (logged (FileWrite (save_answer w) (current_b64 a))
                         (with_file (save_answer w)
                                    (Utf8.encode (current_b64 a))
                                    (logged AskSaveAsFilename w))))
      end
    else (Returns tt, mkSys a (logged AskSaveAsFilename w)).
Proof.
  open_sys a w. unfold_handlers. simpl.
  destruct (truthy cur); simpl; [|reflexivity].
  destruct (truthy sa); simpl; [|reflexivity].
  destruct (wr sa) as [f|]; [|reflexivity].
  destruct (is_Exception (raised f)); destruct f; reflexivity.
Qed.

Lemma same_but_status_refl (a : app) : same_but_status a a.
Proof. repeat split. Qed.

Lemma same_but_status_with_status (m : status_text) (a : app) :
  same_but_status a (with_status m a).
Proof. repeat split. Qed.

Lemma copy_frame (a : app) (w : world) :
  same_but_status a (after Copy a w).
Proof.
  unfold after, handler. rewrite copy_to_clipboard_run.
  destruct (truthy (current_b64 a)); [destruct (clipboard_refused w)|];
    cbn [snd self];
    auto using same_but_status_refl, same_but_status_with_status.
Qed.

Lemma save_frame (a : app) (w : world) :
  same_but_status a (after Save a w).
Proof.
  unfold after, handler. rewrite save_base64_run.
  destruct (truthy (current_b64 a)); cbn [negb];
    [destruct (truthy (save_answer w));
     [destruct (write_refused w (save_answer w)) as [f|];
      [destruct (is_Exception (raised f))|]|]|];
    cbn [snd self];
    auto using same_but_status_refl, same_but_status_with_status.
Qed.

Lemma after_convert (a : app) (w : world) :
  after Convert a w
  = match read_bytes w (file_path a) with
    | inl data => converted data a
    | inr _ => a
    end.
Proof.
  unfold after, handler.
  destruct (read_bytes w (file_path a)) as [data | e] eqn:Hread.
  - now rewrite (convert_file_read a w data Hread).
  - rewrite (convert_file_unread a w e Hread).
    now destruct (is_Exception e).
Qed.

Lemma after_browse (a : app) (w : world) :
  after Browse a w
  = if truthy (open_answer w)
    then with_status (Ready (open_answer w))
           (with_convert_btn normal (with_file_path (open_answer w) a))
    else a.
Proof. unfold after, handler. now rewrite browse_file_run. Qed.

End AppFacts.

(* ================================================================== *)
(** ** The properties of the form                                      *)
(* ================================================================== *)

Module Properties.

Import Py App AppFacts Sample MoreSample.
Local Open Scope string_scope.

(** *** The sample run, computed *)

Example shown_form :
  shown = {| file_path := "notes.txt";
             current_b64 := "TWFu";
             convert_btn := normal;
             copy_btn := normal;
             save_btn := normal;
             output_text := "TWFu";
             status := Converted 3 4 |}.
Proof. reflexivity. Qed.

Example shown_copied :
  clipboard (world_after Copy shown desk) = "TWFu" /\
  status (after Copy shown desk) = Copied.
Proof. split; reflexivity. Qed.

Example shown_saved :
  read_bytes (world_after Save shown desk) "out.txt"
  = inl (list_byte_of_string "TWFu") /\
  trace (world_after Save shown desk)
  = [FileWrite "out.txt" "TWFu"; AskSaveAsFilename] /\
  status (after Save shown desk) = Saved "out.txt".
Proof. repeat split; reflexivity. Qed.

Example copy_can_raise :
  result Copy shown locked_desk
  = Raises (PyperclipException "no copy/paste mechanism").
Proof. reflexivity. Qed.

(** A conversion goes through (the call returns and shows no error box)
    exactly when the file named by the path field is read. *)
Lemma convert_file_goes_through_iff (a : app) (w : world) :
  result Convert a w = Returns tt /\ world_after Convert a w = w
  <-> exists data, read_bytes w (file_path a) = inl data.
Proof.
  unfold result, world_after, handler.
  destruct (read_bytes w (file_path a)) as [data | e] eqn:Hread.
  - rewrite (convert_file_read a w data Hread). cbn [fst snd env].
    split; eauto.
  - rewrite (convert_file_unread a w e Hread).
    destruct (is_Exception e); cbn [fst snd env]; split.
    + intros [_ H]. apply (f_equal (fun x => List.length (trace x))) in H.
      destruct w; cbn in H. lia.
    + intros [data H]. discriminate H.
    + intros [H _]. discriminate H.
    + intros [data H]. discriminate H.
Qed.

(** The stored text of a reachable state is the text of the bytes last
    converted, and empty before any conversion. *)
Lemma reachable_stored_text (a : app) (last : option (list byte)) :
  reachable a last ->
  current_b64 a = match last with
                  | Some data => encoded data
                  | None => ""
                  end.
Proof.
  induction 1 as [| act w a last Hreach IH]; [reflexivity|].
  destruct act; cbn [converted_after].
  - rewrite after_browse. destruct (truthy (open_answer w)); exact IH.
  - rewrite after_convert.
    destruct (read_bytes w (file_path a)); [reflexivity | exact IH].
  - destruct (copy_frame a w) as (_ & Hcur & _). now rewrite Hcur.
  - destruct (save_frame a w) as (_ & Hcur & _). now rewrite Hcur.
Qed.

(** In a reachable state the convert button is enabled only with a path
    in the path field. *)
Lemma reachable_convert_btn (a : app) (last : option (list byte)) :
  reachable a last -> convert_btn a = normal -> truthy (file_path a) = true.
Proof.
  induction 1 as [| act w a last Hreach IH]; [discriminate|].
  destruct act.
  - rewrite after_browse.
    destruct (truthy (open_answer w)) eqn:Hanswer; [|exact IH].
    intros _. exact Hanswer.
  - rewrite after_convert.
    destruct (read_bytes w (file_path a)); exact IH.
  - destruct (copy_frame a w) as (Hpath & _ & Hbtn & _).
    now rewrite Hpath, Hbtn.
  - destruct (save_frame a w) as (Hpath & _ & Hbtn & _).
    now rewrite Hpath, Hbtn.
Qed.

Lemma reachable_shown : reachable shown (Some notes).
Proof.
  exact (reach_step Convert desk (reach_step Browse desk reach_init)).
Qed.

(** C1. For every file whose bytes are read, [convert_file] goes through
    (it returns and shows no error) and leaves in [current_b64] exactly
    the standard Base64 encoding of those bytes read as UTF-8 text: the
    text is what decoding the encoded bytes as UTF-8 gives, and its UTF-8
    bytes are the encoded bytes. *)
Theorem convert_file_stores_b64encode (a : app) (w : world) (data : list byte) :
  read_bytes w (file_path a) = inl data ->
  result Convert a w = Returns tt /\
  world_after Convert a w = w /\
  Utf8.decode (Base64.b64encode data) = Some (current_b64 (after Convert a w)) /\
  Utf8.encode (current_b64 (after Convert a w)) = Base64.b64encode data.
Proof.
  intros Hread.
  unfold result, world_after, after, handler.
  rewrite (convert_file_read a w data Hread). cbn [fst snd self env].
  cbn [converted current_b64].
  repeat split.
  - apply decode_b64encode.
  - apply Utf8Facts.encode_decode, decode_b64encode.
Qed.

Lemma convert_file_stores_b64encode_witness :
  read_bytes desk (file_path picked) = inl notes /\
  current_b64 (after Convert picked desk) = "TWFu" /\
  Utf8.encode (current_b64 (after Convert picked desk))
  = Base64.b64encode notes.
Proof.
  split; [reflexivity|].
  split; [reflexivity|].
  apply (convert_file_stores_b64encode picked desk notes). reflexivity.
Defined.

(** C2. In every state reached by any sequence of calls of the four
    handlers, whatever the world each call meets, the stored text is
    empty or is the Base64 encoding, as UTF-8 text, of the bytes of the
    most recently converted file. *)
Theorem stored_text_empty_or_last_encoding (a : app) (last : option (list byte)) :
  reachable a last ->
  current_b64 a = "" \/
  exists data,
    last = Some data /\
    Utf8.decode (Base64.b64encode data) = Some (current_b64 a).
Proof.
  intros Hreach. rewrite (reachable_stored_text a last Hreach).
  destruct last as [data|]; [right | left; reflexivity].
  exists data. split; [reflexivity | apply decode_b64encode].
Qed.

Lemma stored_text_empty_or_last_encoding_witness :
  current_b64 shown = "" \/
  exists data,
    Some notes = Some data /\
    Utf8.decode (Base64.b64encode data) = Some (current_b64 shown).
Proof.
  apply (stored_text_empty_or_last_encoding shown (Some notes)).
  exact reachable_shown.
Defined.

(** C3. After a conversion (a call of [convert_file] on a file that is
    read) the text display holds exactly the stored text, and the copy
    and save buttons are enabled. *)
Theorem conversion_fills_display_and_enables (a : app) (w : world) (data : list byte) :
  read_bytes w (file_path a) = inl data ->
  output_text (after Convert a w) = current_b64 (after Convert a w) /\
  copy_btn (after Convert a w) = normal /\
  save_btn (after Convert a w) = normal.
Proof.
  intros Hread. rewrite after_convert, Hread.
  repeat split.
Qed.

Lemma conversion_fills_display_and_enables_witness :
  read_bytes desk (file_path picked) = inl notes /\
  output_text (after Convert picked desk) = current_b64 (after Convert picked desk) /\
  copy_btn (after Convert picked desk) = normal /\
  save_btn (after Convert picked desk) = normal.
Proof.
  split; [reflexivity|].
  apply (conversion_fills_display_and_enables picked desk notes). reflexivity.
Defined.

(** C4. [copy_to_clipboard] and [save_base64] leave the stored text, the
    file path and the state of the three buttons as they were, in every
    state and every world (the display is left alone too; only the
    status line is rewritten). *)
Theorem copy_and_save_keep_state (a : app) (w : world) :
  (current_b64 (after Copy a w) = current_b64 a /\
   file_path (after Copy a w) = file_path a /\
   convert_btn (after Copy a w) = convert_btn a /\
   copy_btn (after Copy a w) = copy_btn a /\
   save_btn (after Copy a w) = save_btn a /\
   output_text (after Copy a w) = output_text a) /\
  (current_b64 (after Save a w) = current_b64 a /\
   file_path (after Save a w) = file_path a /\
   convert_btn (after Save a w) = convert_btn a /\
   copy_btn (after Save a w) = copy_btn a /\
   save_btn (after Save a w) = save_btn a /\
   output_text (after Save a w) = output_text a).
Proof.
  pose proof (copy_frame a w) as Hc. pose proof (save_frame a w) as Hs.
  unfold same_but_status in Hc, Hs. intuition.
Qed.




(** C6. When the open dialog returns a path, [browse_file] puts it in
    the path field and enables the convert button; and in every
    reachable state an enabled convert button comes with a path in the
    path field. *)
Theorem selecting_a_file_enables_convert :
  (forall a w,
      open_answer w <> "" ->
      convert_btn (after Browse a w) = normal /\
      file_path (after Browse a w) = open_answer w) /\
  (forall a last,
      reachable a last -> convert_btn a = normal -> file_path a <> "").
Proof.
  split.
  - intros a w Hanswer. apply truthy_true_iff in Hanswer.
    rewrite after_browse, Hanswer. split; reflexivity.
  - intros a last Hreach Hbtn. apply truthy_true_iff.
    exact (reachable_convert_btn a last Hreach Hbtn).
Qed.

Lemma selecting_a_file_enables_convert_witness :
  convert_btn (after Browse init desk) = normal /\
  file_path (after Browse init desk) = "notes.txt" /\
  file_path shown <> "".
Proof.
  destruct selecting_a_file_enables_convert as [Hbrowse Hinv].
  destruct (Hbrowse init desk) as [Hbtn Hpath]; [discriminate|].
  split; [exact Hbtn|]. split; [exact Hpath|].
  apply (Hinv shown (Some notes)).
  - exact reachable_shown.
  - reflexivity.
Defined.

(** C7. Converting the same bytes from any two states gives the same
    stored text and the same display: neither depends on the text that
    was stored or shown before. *)
Theorem conversion_depends_on_bytes_only
        (a1 a2 : app) (w1 w2 : world) (data : list byte) :
  read_bytes w1 (file_path a1) = inl data ->
  read_bytes w2 (file_path a2) = inl data ->
  current_b64 (after Convert a1 w1) = current_b64 (after Convert a2 w2) /\
  output_text (after Convert a1 w1) = output_text (after Convert a2 w2).
Proof.
  intros H1 H2. rewrite !after_convert, H1, H2. split; reflexivity.
Qed.

Lemma conversion_depends_on_bytes_only_witness :
  (current_b64 picked = "" /\ current_b64 repicked = "TWE=") /\
  current_b64 (after Convert picked desk) = current_b64 (after Convert repicked desk) /\
  output_text (after Convert picked desk) = output_text (after Convert repicked desk).
Proof.
  split; [split; reflexivity|].
  apply (conversion_depends_on_bytes_only picked repicked desk desk notes);
    reflexivity.
Defined.

(** C8. When the file cannot be opened or read, [convert_file] leaves
    the stored text, the display and the copy and save buttons as they
    were; indeed no attribute of the form changes. *)
Theorem failed_conversion_keeps_state (a : app) (w : world) (e : exception) :
  read_bytes w (file_path a) = inr e ->
  current_b64 (after Convert a w) = current_b64 a /\
  output_text (after Convert a w) = output_text a /\
  copy_btn (after Convert a w) = copy_btn a /\
  save_btn (after Convert a w) = save_btn a /\
  after Convert a w = a.
Proof.
  intros Hread. rewrite after_convert, Hread. repeat split.
Qed.

Lemma failed_conversion_keeps_state_witness :
  read_bytes locked_desk (file_path shown)
  = inr (OSError "[Errno 13] Permission denied") /\
  current_b64 (after Convert shown locked_desk) = "TWFu" /\
  after Convert shown locked_desk = shown.
Proof.
  split; [reflexivity|].
  destruct (failed_conversion_keeps_state shown locked_desk _ eq_refl)
    as (Hcur & _ & _ & _ & Hall).
  split; [rewrite Hcur; reflexivity | exact Hall].
Defined.

(** C9. With nothing stored, [copy_to_clipboard] and [save_base64] return
    at once and change nothing at all: no clipboard write, no status
    update, no dialog, no file written, nothing added to the trace. *)
Theorem empty_text_copy_and_save_do_nothing (a : app) (w : world) :
  current_b64 a = "" ->
  copy_to_clipboard (mkSys a w) = (Returns tt, mkSys a w) /\
  save_base64 (mkSys a w) = (Returns tt, mkSys a w).
Proof.
  intros Hcur. apply truthy_false_iff in Hcur.
  rewrite copy_to_clipboard_run, save_base64_run, Hcur.
  split; reflexivity.
Qed.

Lemma empty_text_copy_and_save_do_nothing_witness :
  copy_to_clipboard (mkSys picked locked_desk)
  = (Returns tt, mkSys picked locked_desk) /\
  save_base64 (mkSys picked desk) = (Returns tt, mkSys picked desk).
Proof.
  split.
  - apply (empty_text_copy_and_save_do_nothing picked locked_desk). reflexivity.
  - apply (empty_text_copy_and_save_do_nothing picked desk). reflexivity.
Defined.

(** C10. The stored text decodes back to the file: for every byte
    sequence read from the input file, standard Base64 decoding of the
    text [convert_file] stores gives exactly those bytes. *)
Theorem stored_text_decodes_to_the_bytes (a : app) (w : world) (data : list byte) :
  read_bytes w (file_path a) = inl data ->
  Base64.b64decode (Utf8.encode (current_b64 (after Convert a w))) = Some data.
Proof.
  intros Hread. rewrite after_convert, Hread.
  cbn [converted current_b64].
  rewrite (Utf8Facts.encode_decode _ _ (decode_b64encode data)).
  apply Base64Facts.b64decode_b64encode.
Qed.

Lemma stored_text_decodes_to_the_bytes_witness :
  read_bytes desk (file_path picked) = inl notes /\
  Base64.b64decode (Utf8.encode (current_b64 (after Convert picked desk)))
  = Some notes.
Proof.
  split; [reflexivity|].
  apply (stored_text_decodes_to_the_bytes picked desk notes). reflexivity.
Defined.

End Properties.

(* ================================================================== *)
(** ** Further properties of the handlers                              *)
(* ================================================================== *)

Module More.

Import Py App AppFacts Sample MoreSample.
Local Open Scope string_scope.

(** *** Each handler, by cases *)

Lemma after_copy (a : app) (w : world) :
  after Copy a w
  = if truthy (current_b64 a) then
      match clipboard_refused w with
      | Some _ => a
      | None => with_status Copied a
      end
    else a.
Proof.
  unfold after, handler. rewrite copy_to_clipboard_run.
  destruct (truthy (current_b64 a)); [destruct (clipboard_refused w)|];
    reflexivity.
Qed.

Lemma after_save (a : app) (w : world) :
  after Save a w
  = if truthy (current_b64 a) && truthy (save_answer w) then
      match write_refused w (save_answer w) with
      | Some _ => a
      | None => with_status (Saved (save_answer w)) a
      end
    else a.
Proof.
  unfold after, handler. rewrite save_base64_run.
  destruct (truthy (current_b64 a)); cbn [negb andb]; [|reflexivity].
  destruct (truthy (save_answer w)); [|reflexivity].
  destruct (write_refused w (save_answer w)) as [f|]; [|reflexivity].
  destruct (is_Exception (raised f)); reflexivity.
Qed.

Lemma world_after_convert (a : app) (w : world) :
  world_after Convert a w
  = match read_bytes w (file_path a) with
    | inl _ => w
    | inr e =>
        if is_Exception e then
          logged (ShowError "Conversion Error"
                            ("Failed to read file:" ++ newline) e) w
        else w
    end.
Proof.
  unfold world_after, handler.
  destruct (read_bytes w (file_path a)) as [data | e] eqn:Hread.
  - now rewrite (convert_file_read a w data Hread).
  - rewrite (convert_file_unread a w e Hread).
    now destruct (is_Exception e).
Qed.

Lemma encoded_inj (d1 d2 : list byte) : encoded d1 = encoded d2 -> d1 = d2.
Proof.
  unfold encoded. intros H.
  apply (f_equal list_byte_of_string) in H.
  rewrite !list_byte_of_string_of_list_byte in H.
  apply (f_equal Base64.b64decode) in H.
  rewrite !Base64Facts.b64decode_b64encode in H.
  now injection H.
Qed.

Lemma encoded_empty_inv (data : list byte) : encoded data = "" -> data = [].
Proof. intros H. apply encoded_inj. exact H. Qed.

Lemma encoded_truthy (data : list byte) :
  data <> [] -> truthy (encoded data) = true.
Proof.
  intros Hdata. apply truthy_true_iff. intros H.
  apply Hdata, encoded_empty_inv, H.
Qed.

Lemma utf8_encode_encoded (data : list byte) :
  Utf8.encode (encoded data) = Base64.b64encode data.
Proof. apply list_byte_of_string_of_list_byte. Qed.

(** X1. [browse_file] never touches the stored text, the display or the
    copy and save buttons, whatever the dialog returns: after another
    file is picked the form still holds the text of the previous one.
    When the dialog is cancelled it changes no attribute at all. *)
Theorem browse_file_keeps_text (a : app) (w : world) :
  current_b64 (after Browse a w) = current_b64 a /\
  output_text (after Browse a w) = output_text a /\
  copy_btn (after Browse a w) = copy_btn a /\
  save_btn (after Browse a w) = save_btn a /\
  (open_answer w = "" -> after Browse a w = a).
Proof.
  rewrite after_browse.
  destruct (truthy (open_answer w)) eqn:Hanswer.
  - repeat split. intros Hempty. apply truthy_false_iff in Hempty. congruence.
  - repeat split.
Qed.

Lemma browse_file_keeps_text_witness :
  current_b64 (after Browse shown shelf) = "TWFu" /\
  file_path (after Browse shown shelf) = "draft.txt" /\
  after Browse shown idle_desk = shown.
Proof.
  destruct (browse_file_keeps_text shown shelf) as (Hcur & _).
  destruct (browse_file_keeps_text shown idle_desk) as (_ & _ & _ & _ & Hcancel).
  split; [rewrite Hcur; reflexivity|].
  split; [reflexivity|].
  apply Hcancel. reflexivity.
Defined.

(** X2. With a text stored, [copy_to_clipboard] either puts exactly that
    text on the clipboard and reports "Copied to clipboard!", or, when
    pyperclip raises, lets the exception out to its caller: nothing
    catches it, the clipboard and the status line stay as they were. *)
Theorem copy_to_clipboard_copies_or_raises (a : app) (w : world) :
  current_b64 a <> "" ->
  (clipboard_refused w = None ->
   result Copy a w = Returns tt /\
   clipboard (world_after Copy a w) = current_b64 a /\
   status (after Copy a w) = Copied) /\
  (forall message,
      clipboard_refused w = Some message ->
      result Copy a w = Raises (PyperclipException message) /\
      world_after Copy a w = w /\
      after Copy a w = a).
Proof.
  intros Hcur. apply truthy_true_iff in Hcur.
  unfold result, world_after, after, handler.
  rewrite copy_to_clipboard_run, Hcur.
  split.
  - intros Hok. rewrite Hok. repeat split.
  - intros message Hrefused. rewrite Hrefused. repeat split.
Qed.

Lemma copy_to_clipboard_copies_or_raises_witness :
  clipboard (world_after Copy shown desk) = "TWFu" /\
  result Copy shown locked_desk
  = Raises (PyperclipException "no copy/paste mechanism") /\
  after Copy shown locked_desk = shown.
Proof.
  assert (Hcur : current_b64 shown <> "") by discriminate.
  destruct (copy_to_clipboard_copies_or_raises shown desk Hcur) as [Hok _].
  destruct (copy_to_clipboard_copies_or_raises shown locked_desk Hcur)
    as [_ Hraise].
  destruct (Hok eq_refl) as (_ & Hclip & _).
  destruct (Hraise _ eq_refl) as (Hres & _ & Hsame).
  split; [rewrite Hclip; reflexivity|].
  split; [exact Hres | exact Hsame].
Defined.

(** X3. Converting a non-empty file and then saving to a path that can
    be written leaves at that path a file that standard Base64 decoding
    turns back into the bytes converted. *)
Theorem saved_file_decodes_to_the_bytes
        (a : app) (w w' : world) (data : list byte) :
  read_bytes w (file_path a) = inl data ->
  data <> [] ->
  save_answer w' <> "" ->
  write_refused w' (save_answer w') = None ->
  exists saved,
    read_bytes (world_after Save (after Convert a w) w') (save_answer w')
    = inl saved /\
    Base64.b64decode saved = Some data.
Proof.
  intros Hread Hdata Hanswer Hwrite.
  exists (Base64.b64encode data).
  split; [|apply Base64Facts.b64decode_b64encode].
  rewrite after_convert, Hread.
  unfold world_after, handler. rewrite save_base64_run.
  cbn [converted current_b64].
  rewrite (encoded_truthy data Hdata).
  apply truthy_true_iff in Hanswer. rewrite Hanswer, Hwrite.
  cbn. rewrite String.eqb_refl. now rewrite utf8_encode_encoded.
Qed.

Lemma saved_file_decodes_to_the_bytes_witness :
  exists saved,
    read_bytes (world_after Save (after Convert picked desk) desk) "out.txt"
    = inl saved /\
    Base64.b64decode saved = Some notes.
Proof.
  apply (saved_file_decodes_to_the_bytes picked desk desk notes).
  - reflexivity.
  - discriminate.
  - discriminate.
  - reflexivity.
Defined.

(** X4. When the save dialog is cancelled, [save_base64] returns having
    done nothing but open the dialog: no file is written, no error is
    shown, and no attribute of the form changes, the status line
    included. *)
Theorem cancelled_save_does_nothing (a : app) (w : world) :
  current_b64 a <> "" ->
  save_answer w = "" ->
  result Save a w = Returns tt /\
  after Save a w = a /\
  world_after Save a w = logged AskSaveAsFilename w.
Proof.
  intros Hcur Hanswer.
  apply truthy_true_iff in Hcur. apply truthy_false_iff in Hanswer.
  unfold result, world_after, after, handler.
  rewrite save_base64_run, Hcur, Hanswer. repeat split.
Qed.

Lemma cancelled_save_does_nothing_witness :
  after Save shown idle_desk = shown /\
  trace (world_after Save shown idle_desk) = [AskSaveAsFilename].
Proof.
  destruct (cancelled_save_does_nothing shown idle_desk)
    as (_ & Hsame & Hworld); [discriminate | reflexivity |].
  split; [exact Hsame | rewrite Hworld; reflexivity].
Defined.

(** X5. No handler changes a file other than the one chosen in the save
    dialog: [browse_file], [convert_file] and [copy_to_clipboard] leave
    every file as it was (the converted file in particular), and
    [save_base64] leaves every file but the chosen one. *)
Theorem only_the_chosen_file_is_written
        (act : action) (a : app) (w : world) (p : str) :
  (act = Save -> p <> save_answer w) ->
  read_bytes (world_after act a w) p = read_bytes w p.
Proof.
  intros Hother.
  destruct act; [| rewrite world_after_convert | |];
    unfold world_after, handler.
  - now rewrite browse_file_run.
  - destruct (read_bytes w (file_path a)) as [data | e]; [reflexivity|].
    destruct (is_Exception e); reflexivity.
  - rewrite copy_to_clipboard_run.
    destruct (truthy (current_b64 a)); [destruct (clipboard_refused w)|];
      reflexivity.
  - rewrite save_base64_run.
    destruct (negb (truthy (current_b64 a))); [reflexivity|].
    destruct (truthy (save_answer w)); [|reflexivity].
    specialize (Hother eq_refl). apply String.eqb_neq in Hother.
    destruct (write_refused w (save_answer w)) as [f|].
    + destruct (is_Exception (raised f)); destruct f; cbn;
        first [reflexivity | now rewrite Hother].
    + cbn. now rewrite Hother.
Qed.

Lemma only_the_chosen_file_is_written_witness :
  read_bytes (world_after Save shown desk) "notes.txt" = inl notes /\
  read_bytes (world_after Convert picked desk) "notes.txt" = inl notes.
Proof.
  split.
  - rewrite (only_the_chosen_file_is_written Save shown desk "notes.txt").
    + reflexivity.
    + intros _. discriminate.
  - rewrite (only_the_chosen_file_is_written Convert picked desk "notes.txt").
    + reflexivity.
    + intros H. discriminate H.
Defined.

(** *** Invariants of the reachable states *)

Lemma reachable_display (a : app) (last : option (list byte)) :
  reachable a last -> output_text a = current_b64 a.
Proof.
  induction 1 as [| act w a last Hreach IH]; [reflexivity|].
  destruct act.
  - rewrite after_browse. destruct (truthy (open_answer w)); exact IH.
  - rewrite after_convert.
    destruct (read_bytes w (file_path a)); [reflexivity | exact IH].
  - destruct (copy_frame a w) as (_ & Hcur & _ & _ & _ & Hout). congruence.
  - destruct (save_frame a w) as (_ & Hcur & _ & _ & _ & Hout). congruence.
Qed.

Lemma reachable_copy_save (a : app) (last : option (list byte)) :
  reachable a last ->
  copy_btn a = save_btn a /\ (copy_btn a = normal <-> last <> None).
Proof.
  induction 1 as [| act w a last Hreach IH].
  - split; [reflexivity|]. split; [discriminate | congruence].
  - destruct act; cbn [converted_after].
    + rewrite after_browse. destruct (truthy (open_answer w)); exact IH.
    + rewrite after_convert.
      destruct (read_bytes w (file_path a)); [|exact IH].
      split; [reflexivity|]. split; [discriminate | reflexivity].
    + destruct (copy_frame a w) as (_ & _ & _ & Hcopy & Hsave & _).
      now rewrite Hcopy, Hsave.
    + destruct (save_frame a w) as (_ & _ & _ & Hcopy & Hsave & _).
      now rewrite Hcopy, Hsave.
Qed.

Lemma reachable_path (a : app) (last : option (list byte)) :
  reachable a last -> truthy (file_path a) = true -> convert_btn a = normal.
Proof.
  induction 1 as [| act w a last Hreach IH]; [discriminate|].
  destruct act.
  - rewrite after_browse.
    destruct (truthy (open_answer w)); [reflexivity | exact IH].
  - rewrite after_convert.
    destruct (read_bytes w (file_path a)); exact IH.
  - destruct (copy_frame a w) as (Hpath & _ & Hbtn & _).
    now rewrite Hpath, Hbtn.
  - destruct (save_frame a w) as (Hpath & _ & Hbtn & _).
    now rewrite Hpath, Hbtn.
Qed.

Lemma reachable_blank : reachable blank (Some []).
Proof.
  exact (reach_step Convert bare_desk (reach_step Browse bare_desk reach_init)).
Qed.

(** X6. In every state reached by calls of the handlers the display
    holds exactly the stored text: what the user sees is what copy and
    save act on. *)
Theorem display_is_stored_text (a : app) (last : option (list byte)) :
  reachable a last -> output_text a = current_b64 a.
Proof. apply reachable_display. Qed.

Lemma display_is_stored_text_witness :
  output_text (after Browse shown shelf) = current_b64 (after Browse shown shelf).
Proof.
  apply (display_is_stored_text (after Browse shown shelf) (Some notes)).
  exact (reach_step Browse shelf Properties.reachable_shown).
Defined.

(** X7. In every reachable state the copy and save buttons are in the
    same state, and they are enabled exactly when some conversion has
    gone through. *)
Theorem copy_and_save_enabled_after_conversion
        (a : app) (last : option (list byte)) :
  reachable a last ->
  copy_btn a = save_btn a /\ (copy_btn a = normal <-> last <> None).
Proof. apply reachable_copy_save. Qed.

Lemma copy_and_save_enabled_after_conversion_witness :
  copy_btn picked = save_btn picked /\
  (copy_btn picked = normal <-> @None (list byte) <> None).
Proof.
  apply (copy_and_save_enabled_after_conversion picked None).
  exact (reach_step Browse desk reach_init).
Defined.

(** X8. No handler ever disables a button: a button that is enabled
    stays enabled whatever is called next, also when the call fails. *)
Theorem buttons_stay_enabled (act : action) (a : app) (w : world) :
  (convert_btn a = normal -> convert_btn (after act a w) = normal) /\
  (copy_btn a = normal -> copy_btn (after act a w) = normal) /\
  (save_btn a = normal -> save_btn (after act a w) = normal).
Proof.
  destruct act.
  - rewrite after_browse. destruct (truthy (open_answer w)); auto.
  - rewrite after_convert. destruct (read_bytes w (file_path a)); auto.
  - destruct (copy_frame a w) as (_ & _ & Hconvert & Hcopy & Hsave & _).
    rewrite Hconvert, Hcopy, Hsave. auto.
  - destruct (save_frame a w) as (_ & _ & Hconvert & Hcopy & Hsave & _).
    rewrite Hconvert, Hcopy, Hsave. auto.
Qed.

Lemma buttons_stay_enabled_witness :
  convert_btn (after Convert shown locked_desk) = normal /\
  copy_btn (after Convert shown locked_desk) = normal /\
  save_btn (after Browse shown shelf) = normal.
Proof.
  destruct (buttons_stay_enabled Convert shown locked_desk) as (H1 & H2 & _).
  destruct (buttons_stay_enabled Browse shown shelf) as (_ & _ & H3).
  split; [apply H1; reflexivity|].
  split; [apply H2; reflexivity | apply H3; reflexivity].
Defined.

(** X9. Converting an empty file goes through with an empty text: the
    copy and save buttons are enabled, yet from then on
    [copy_to_clipboard] and [save_base64] return without doing anything,
    in every world. *)
Theorem empty_file_enables_idle_buttons (a : app) (w : world) :
  read_bytes w (file_path a) = inl [] ->
  current_b64 (after Convert a w) = "" /\
  copy_btn (after Convert a w) = normal /\
  save_btn (after Convert a w) = normal /\
  forall w',
    copy_to_clipboard (mkSys (after Convert a w) w')
    = (Returns tt, mkSys (after Convert a w) w') /\
    save_base64 (mkSys (after Convert a w) w')
    = (Returns tt, mkSys (after Convert a w) w').
Proof.
  intros Hread. rewrite after_convert, Hread.
  split; [reflexivity|]. split; [reflexivity|]. split; [reflexivity|].
  intros w'. rewrite copy_to_clipboard_run, save_base64_run.
  split; reflexivity.
Qed.

Lemma empty_file_enables_idle_buttons_witness :
  copy_btn blank = normal /\
  save_base64 (mkSys blank desk) = (Returns tt, mkSys blank desk).
Proof.
  destruct (empty_file_enables_idle_buttons (after Browse init bare_desk) bare_desk)
    as (_ & Hcopy & _ & Hidle); [reflexivity|].
  split; [exact Hcopy | apply (Hidle desk)].
Defined.

(** X10. In a reachable state an enabled copy button with nothing stored
    means that the file converted last was empty: with the button
    enabled, the guards of [copy_to_clipboard] and [save_base64] stop
    the call for no other reason. *)
Theorem enabled_but_empty_means_empty_file
        (a : app) (last : option (list byte)) :
  reachable a last ->
  copy_btn a = normal ->
  current_b64 a = "" ->
  last = Some [].
Proof.
  intros Hreach Hbtn Hcur.
  pose proof (Properties.reachable_stored_text a last Hreach) as Htext.
  destruct (reachable_copy_save a last Hreach) as [_ [Hsome _]].
  destruct last as [data|]; [|now elim (Hsome Hbtn)].
  rewrite Hcur in Htext. symmetry in Htext.
  now rewrite (encoded_empty_inv data Htext).
Qed.

Lemma enabled_but_empty_means_empty_file_witness :
  copy_btn blank = normal /\
  current_b64 blank = "" /\
  converted_after Convert (after Browse init bare_desk) bare_desk None
  = Some [].
Proof.
  split; [reflexivity|]. split; [reflexivity|].
  apply (enabled_but_empty_means_empty_file blank).
  - exact reachable_blank.
  - reflexivity.
  - reflexivity.
Defined.

(** X11. In a reachable state a path in the path field comes with an
    enabled convert button. *)
Theorem path_shown_means_convert_enabled
        (a : app) (last : option (list byte)) :
  reachable a last -> file_path a <> "" -> convert_btn a = normal.
Proof.
  intros Hreach Hpath. apply truthy_true_iff in Hpath.
  exact (reachable_path a last Hreach Hpath).
Qed.

Lemma path_shown_means_convert_enabled_witness :
  convert_btn (after Convert shown locked_desk) = normal.
Proof.
  apply (path_shown_means_convert_enabled
           (after Convert shown locked_desk) (Some notes)).
  - exact (reach_step Convert locked_desk Properties.reachable_shown).
  - discriminate.
Defined.

(** *** The text itself *)

Lemma b2a_in_alphabet (s : N) :
  (s < 64)%N -> In (Base64.b2a s) Base64.alphabet.
Proof.
  intros H. unfold Base64.b2a. apply nth_In.
  change (List.length Base64.alphabet) with 64%nat. lia.
Qed.

Lemma b64encode_symbols (data : list byte) :
  Forall (fun b => In b Base64.alphabet \/ b = Base64.pad)
         (Base64.b64encode data).
Proof.
  assert (Hz : (0 < 256)%N) by lia.
  induction data as [| x0 | x0 x1 | x0 x1 x2 rest IH]
    using Base64Facts.list_ind3;
    cbn [Base64.b64encode];
    repeat match goal with
           | |- Forall _ [] => constructor
           | |- Forall _ (Base64.pad :: _) => constructor; [right; reflexivity|]
           | |- Forall _ (Base64.b2a _ :: _) =>
               constructor; [left; apply b2a_in_alphabet|]
           end;
    auto using Base64Facts.sextet0_lt, Base64Facts.sextet1_lt,
      Base64Facts.sextet2_lt, Base64Facts.sextet3_lt, Base64Facts.to_N_lt.
Qed.

Lemma b64encode_length_mod4 (data : list byte) :
  (List.length (Base64.b64encode data) mod 4 = 0)%nat.
Proof.
  rewrite Base64Facts.b64encode_length, Nat.mul_comm.
  now apply Nat.Div0.mod_mul.
Qed.

(** X12. After a conversion of [n] bytes the status line reports [n]
    bytes and [4 * ceil(n / 3)] characters. *)
Theorem status_reports_sizes (a : app) (w : world) (data : list byte) :
  read_bytes w (file_path a) = inl data ->
  status (after Convert a w)
  = Converted (List.length data) (4 * ((List.length data + 2) / 3)).
Proof.
  intros Hread. rewrite after_convert, Hread.
  cbn [converted status]. unfold encoded.
  rewrite Utf8Facts.len_ascii by apply Base64Facts.b64encode_ascii.
  now rewrite Base64Facts.b64encode_length.
Qed.

Lemma status_reports_sizes_witness :
  status (after Convert picked desk) = Converted 3 4.
Proof.
  apply (status_reports_sizes picked desk notes). reflexivity.
Defined.

(** X13. In every reachable state the stored text is made of letters of
    the Base64 alphabet and ['='] only (no line break, no space), and
    its length is a multiple of four. *)
Theorem stored_text_is_text_safe (a : app) (last : option (list byte)) :
  reachable a last ->
  Forall (fun b => In b Base64.alphabet \/ b = Base64.pad)
         (Utf8.encode (current_b64 a)) /\
  (List.length (Utf8.encode (current_b64 a)) mod 4 = 0)%nat.
Proof.
  intros Hreach.
  rewrite (Properties.reachable_stored_text a last Hreach).
  destruct last as [data|].
  - rewrite utf8_encode_encoded.
    split; [apply b64encode_symbols | apply b64encode_length_mod4].
  - split; [constructor | reflexivity].
Qed.

Lemma stored_text_is_text_safe_witness :
  Forall (fun b => In b Base64.alphabet \/ b = Base64.pad)
         (Utf8.encode (current_b64 shown)) /\
  (List.length (Utf8.encode (current_b64 shown)) mod 4 = 0)%nat.
Proof.
  apply (stored_text_is_text_safe shown (Some notes)).
  exact Properties.reachable_shown.
Defined.

(** X14. The stored text tells the files apart: two conversions that
    leave the same text have read the same bytes. *)
Theorem same_text_means_same_bytes
        (a1 a2 : app) (w1 w2 : world) (d1 d2 : list byte) :
  read_bytes w1 (file_path a1) = inl d1 ->
  read_bytes w2 (file_path a2) = inl d2 ->
  current_b64 (after Convert a1 w1) = current_b64 (after Convert a2 w2) ->
  d1 = d2.
Proof.
  intros H1 H2. rewrite !after_convert, H1, H2.
  cbn [converted current_b64]. apply encoded_inj.
Qed.

Lemma same_text_means_same_bytes_witness :
  notes = list_byte_of_string "Man".
Proof.
  apply (same_text_means_same_bytes picked repicked
           desk
           (with_file "notes.txt" (list_byte_of_string "Man") locked_desk));
    reflexivity.
Defined.

(** X15. Converting again right away changes nothing: the attributes
    after a second [convert_file], run in the world the first one left,
    are those after the first, whether the file can be read or not. *)
Theorem converting_twice_is_converting_once (a : app) (w : world) :
  after Convert (after Convert a w) (world_after Convert a w)
  = after Convert a w.
Proof.
  rewrite world_after_convert.
  destruct (read_bytes w (file_path a)) as [data | e] eqn:Hread.
  - rewrite !after_convert, Hread.
    cbn [converted file_path]. rewrite Hread. reflexivity.
  - rewrite !after_convert, Hread.
    destruct (is_Exception e); cbn [logged read_bytes]; now rewrite Hread.
Qed.

(** *** The main loop *)

Lemma click_reachable (act : action) (w : world) (a : app)
      (last : option (list byte)) :
  reachable a last -> exists last', reachable (click act a w) last'.
Proof.
  intros Hreach. unfold click.
  destruct (clickable act a); eauto using reach_step.
Qed.

Lemma clicks_reachable (cs : list (action * world)) :
  forall a last, reachable a last -> exists last', reachable (clicks cs a) last'.
Proof.
  induction cs as [| [act w] cs IH]; intros a last Hreach; cbn [clicks].
  - eauto.
  - destruct (click_reachable act w a last Hreach) as [last' Hreach'].
    eauto.
Qed.

(** X16. A fresh form does nothing until a file is picked: whatever is
    clicked, and in whatever worlds, as long as every open dialog is
    cancelled the form stays as [__init__] and [setup_ui] made it. *)
Theorem fresh_form_waits_for_a_file (cs : list (action * world)) :
  Forall (fun c => fst c = Browse -> open_answer (snd c) = "") cs ->
  clicks cs init = init.
Proof.
  induction 1 as [| [act w] cs Hc _ IH]; [reflexivity|].
  cbn [clicks]. cbn [fst snd] in Hc.
  replace (click act init w) with init; [exact IH|].
  destruct act; try reflexivity.
  unfold click. cbn [clickable]. rewrite after_browse.
  specialize (Hc eq_refl). apply truthy_false_iff in Hc. now rewrite Hc.
Qed.

Lemma fresh_form_waits_for_a_file_witness :
  clicks [(Convert, desk); (Browse, idle_desk); (Copy, desk); (Save, desk)]
         init
  = init.
Proof.
  apply fresh_form_waits_for_a_file.
  repeat constructor; cbn [fst snd]; intros H;
    first [discriminate H | reflexivity].
Defined.

(** X17. Whatever is clicked from a fresh form, the main loop calls
    [convert_file] only with a path in the path field, and
    [copy_to_clipboard] and [save_base64] only with the Base64 text of
    some file's bytes stored. *)
Theorem main_loop_calls_in_order (cs : list (action * world)) :
  (clickable Convert (clicks cs init) = true ->
   file_path (clicks cs init) <> "") /\
  (clickable Copy (clicks cs init) = true \/
   clickable Save (clicks cs init) = true ->
   exists data,
     Utf8.decode (Base64.b64encode data)
     = Some (current_b64 (clicks cs init))).
Proof.
  destruct (clicks_reachable cs init None reach_init) as [last Hreach].
  set (a := clicks cs init) in *.
  destruct (reachable_copy_save a last Hreach) as [Hsame [Hsome _]].
  pose proof (Properties.reachable_stored_text a last Hreach) as Htext.
  split.
  - cbn [clickable]. intros Hbtn. apply truthy_true_iff.
    apply (Properties.reachable_convert_btn a last Hreach).
    now destruct (convert_btn a).
  - cbn [clickable]. rewrite <- Hsame. intros Hbtn.
    assert (Hcopy : copy_btn a = normal)
      by (destruct (copy_btn a); [reflexivity | now destruct Hbtn]).
    destruct last as [data|]; [|now elim (Hsome Hcopy)].
    exists data. rewrite Htext. apply decode_b64encode.
Qed.

Lemma main_loop_calls_in_order_witness :
  file_path (clicks [(Browse, desk); (Convert, desk)] init) <> "" /\
  exists data,
    Utf8.decode (Base64.b64encode data)
    = Some (current_b64 (clicks [(Browse, desk); (Convert, desk)] init)).
Proof.
  destruct (main_loop_calls_in_order [(Browse, desk); (Convert, desk)])
    as [Hconvert Hcopy].
  split.
  - apply Hconvert. reflexivity.
  - apply Hcopy. left. reflexivity.
Defined.

End More.
